(** * faust.utils.objects: [iter_mro_reversed] and [cached_property]

    A shallow embedding of [faust/utils/objects.py], followed by the
    properties of the two utilities.

    - The generator [iter_mro_reversed] becomes the list of the classes it
      yields, in the order it yields them.
    - The descriptor class [cached_property] becomes a record with one
      function per method. The instance's [__dict__] is a finite map from
      attribute names to values; the compute function, the setter and the
      delete hook are user code that receives the instance, so each is a
      transformer of that map which returns a value or raises; the methods
      thread the map through a state-and-exception monad. *)

From stdpp Require Import gmap strings list.

Module Objects.

(** * [iter_mro_reversed] *)

Section iter_mro_reversed.

(** Class objects. [subcls == stop] on classes is object identity, which
    the decidable equality of [type] stands for. *)
Context {type : Type} `{EqDecision type}.

(** [cls.__mro__] is computed by the interpreter when the class is created;
    the function only reads it, so it is a parameter here. *)
Variable mro : type → list type.

(** The [for] loop, with the flag [wanted] as an argument; the result is
    the list of the classes yielded:
<<
    for subcls in ...:
        if wanted:
            yield cast(Type, subcls)
        else:
            wanted = subcls == stop
>> *)
Fixpoint iter_mro_reversed_loop (stop : type) (wanted : bool)
    (classes : list type) : list type :=
  match classes with
  | [] => []
  | subcls :: rest =>
      if wanted
      then subcls :: iter_mro_reversed_loop stop wanted rest
      else iter_mro_reversed_loop stop (bool_decide (subcls = stop)) rest
  end.

(** [wanted = False], then the loop over [reversed(cls.__mro__)]. *)
Definition iter_mro_reversed (cls stop : type) : list type :=
  iter_mro_reversed_loop stop false (reverse (mro cls)).

End iter_mro_reversed.

(** The hierarchy of the docstring: [class A: ...], [class B(A): ...],
    [class C(B): ...], next to an unrelated [class Other: ...]. Every class
    derives from [object], and [__mro__] is what the interpreter gives. *)
Inductive example_class := Object | A | B | C | Other.

#[global] Instance example_class_eq_dec : EqDecision example_class.
Proof. solve_decision. Defined.

Definition example_mro (cls : example_class) : list example_class :=
  match cls with
  | Object => [Object]
  | A => [A; Object]
  | B => [B; A; Object]
  | C => [C; B; A; Object]
  | Other => [Other; Object]
  end.

(** * [cached_property] *)

(** ** Exceptions and results *)

(** The exceptions the interpreter raises in the methods below, and
    [UserError] for whatever else a user callable raises (a callable may
    raise any of the four). *)
Inductive exception :=
  | AttributeError (msg : string)
  | KeyError (key : string)
  | TypeError (msg : string)
  | UserError (msg : string).

Inductive result (A : Type) :=
  | Returns (a : A)
  | Raises (e : exception).
Arguments Returns {A} a.
Arguments Raises {A} e.

Definition result_bind {A B} (r : result A) (k : A → result B) : result B :=
  match r with
  | Returns a => k a
  | Raises e => Raises e
  end.

Section cached_property.

(** Python values ([Any] in the annotations). *)
Context {Value : Type}.

(** ** Function objects

    [fget], [fset] and [fdel] are functions as the decorators of the class
    docstring receive them. [fn_call f args d] runs [f(obj, *args)] where
    [d] is [obj.__dict__]: it gives the dictionary as the call leaves it
    and what the call returns or raises. *)
Record function := Function {
  fn_doc : option string;
  fn_name : string;
  fn_module : string;
  fn_call : list Value → gmap string Value → gmap string Value * result Value
}.

(** ** The instance

    The calls a descriptor makes are recorded next to the instance's
    dictionary, in the order they are made; user code cannot reach this
    record. *)
Inductive call :=
  | CalledGet
  | CalledSet (value : Value)
  | CalledDel (value : Value).

Record instance := Instance {
  obj_dict : gmap string Value;
  calls : list call
}.

(** ** The monad of the methods *)

Definition M (A : Type) : Type := instance → instance * result A.

Definition ret {A} (a : A) : M A := λ obj, (obj, Returns a).

Definition bind {A B} (m : M A) (k : A → M B) : M B :=
  λ obj,
    match m obj with
    | (obj', Returns a) => k a obj'
    | (obj', Raises e) => (obj', Raises e)
    end.

Definition raise {A} (e : exception) : M A := λ obj, (obj, Raises e).

#[global] Instance M_ret : MRet M := @ret.
#[global] Instance M_bind : MBind M := λ A B k m, bind m k.

(** [try: body except KeyError: handler]. *)
Definition try_except_KeyError {A} (body handler : M A) : M A :=
  λ obj,
    match body obj with
    | (obj', Raises (KeyError _)) => handler obj'
    | outcome => outcome
    end.

(** [obj.__dict__[key]]. *)
Definition dict_getitem (key : string) : M Value :=
  λ obj,
    match obj_dict obj !! key with
    | Some value => (obj, Returns value)
    | None => (obj, Raises (KeyError key))
    end.

(** [obj.__dict__[key] = value]. *)
Definition dict_setitem (key : string) (value : Value) : M unit :=
  λ obj,
    ({| obj_dict := <[key := value]> (obj_dict obj); calls := calls obj |},
     Returns tt).

(** [obj.__dict__.pop(key, _sentinel)]. [_sentinel] is the [object()] made
    when [__delete__] is defined and known to nothing else, so no stored
    value is it: [None] stands for it, [Some value] for a stored value. *)
Definition dict_pop (key : string) : M (option Value) :=
  λ obj,
    match obj_dict obj !! key with
    | Some value =>
        ({| obj_dict := delete key (obj_dict obj); calls := calls obj |},
         Returns (Some value))
    | None => (obj, Returns None)
    end.

(** [f(obj, *args)], recorded as the call [made]. *)
Definition invoke (made : call) (f : function) (args : list Value) : M Value :=
  λ obj,
    let '(d, outcome) := fn_call f args (obj_dict obj) in
    ({| obj_dict := d; calls := calls obj ++ [made] |}, outcome).

(** ** The descriptor *)

(** The attributes [__init__] sets. [__get], [__set] and [__del] are the
    private [self.__get], [self.__set] and [self.__del]. *)
Record cached_property := {
  __get : option function;
  __set : option function;
  __del : option function;
  __doc__ : option string;
  __name__ : string;
  __module__ : string;
  class_attribute : option string
}.

(** Truth value of an optional string: [None] and the empty string are
    false. *)
Definition truthy (s : option string) : bool :=
  match s with
  | Some (String _ _) => true
  | _ => false
  end.

(** [fget.__doc__], [fget.__name__] and [fget.__module__], where [fget] may
    be [None]. [None.__doc__] is an attribute of every object and raises
    nothing; [None] has no [__name__] and no [__module__]. *)
Definition getattr_doc (fget : option function) : result (option string) :=
  match fget with
  | Some f => Returns (fn_doc f)
  | None => Returns None
  end.

Definition getattr_name (fget : option function) : result string :=
  match fget with
  | Some f => Returns (fn_name f)
  | None => Raises (AttributeError "'NoneType' object has no attribute '__name__'")
  end.

Definition getattr_module (fget : option function) : result string :=
  match fget with
  | Some f => Returns (fn_module f)
  | None => Raises (AttributeError "'NoneType' object has no attribute '__module__'")
  end.

(** [cached_property(fget, fset, fdel, doc, class_attribute)]: the object
    that [__init__] has filled in, or the exception [__init__] raises.
<<
    self.__get = fget
    self.__set = fset
    self.__del = fdel
    self.__doc__ = doc or fget.__doc__
    self.__name__ = fget.__name__
    self.__module__ = fget.__module__
    self.class_attribute = class_attribute
>> *)
Definition __init__ (fget fset fdel : option function) (doc : option string)
    (class_attribute : option string) : result cached_property :=
  result_bind (if truthy doc then Returns doc else getattr_doc fget) (λ doc',
  result_bind (getattr_name fget) (λ name,
  result_bind (getattr_module fget) (λ module,
  Returns {| __get := fget; __set := fset; __del := fdel;
             __doc__ := doc'; __name__ := name; __module__ := module;
             class_attribute := class_attribute |}))).

(** [self.__get(obj)]; calling [None] is a [TypeError]. *)
Definition call_get (self : cached_property) : M Value :=
  match __get self with
  | Some fget => invoke CalledGet fget []
  | None => raise (TypeError "'NoneType' object is not callable")
  end.

(** [__get__(self, obj, type)] for an instance [obj]:
<<
    try:
        return obj.__dict__[self.__name__]
    except KeyError:
        value = obj.__dict__[self.__name__] = self.__get(obj)
        return value
>> *)
Definition __get__ (self : cached_property) : M Value :=
  try_except_KeyError
    (dict_getitem (__name__ self))
    (value ← call_get self;
     dict_setitem (__name__ self) value;;
     mret value).

(** What a read on the class gives: a value or the descriptor itself. *)
Inductive class_read :=
  | ClassValue (value : Value)
  | Descriptor (self : cached_property).

(** [__get__(self, None, type)], the read on the class; [type] is [None] or
    the attributes [getattr] finds on the class:
<<
    if obj is None:
        if type is not None and self.class_attribute:
            return getattr(type, self.class_attribute)
        return self
>> *)
Definition __get__class (self : cached_property)
    (type : option (gmap string Value)) : result class_read :=
  match type with
  | Some attrs =>
      if truthy (class_attribute self)
      then match attrs !! default EmptyString (class_attribute self) with
           | Some value => Returns (ClassValue value)
           | None => Raises (AttributeError (default EmptyString (class_attribute self)))
           end
      else Returns (Descriptor self)
  | None => Returns (Descriptor self)
  end.

(** [__set__(self, obj, value)]:
<<
    if self.__set is not None:
        value = self.__set(obj, value)
    obj.__dict__[self.__name__] = value
>> *)
Definition __set__ (self : cached_property) (value : Value) : M unit :=
  value' ← match __set self with
           | Some fset => invoke (CalledSet value) fset [value]
           | None => mret value
           end;
  dict_setitem (__name__ self) value'.

(** [__delete__(self, obj)]:
<<
    value = obj.__dict__.pop(self.__name__, _sentinel)
    if self.__del is not None and value is not _sentinel:
        self.__del(obj, value)
>> *)
Definition __delete__ (self : cached_property) : M unit :=
  popped ← dict_pop (__name__ self);
  match __del self, popped with
  | Some fdel, Some value => invoke (CalledDel value) fdel [value];; mret tt
  | _, _ => mret tt
  end.

(** [return self.__class__(self.__get, fset, self.__del)]. *)
Definition setter (self : cached_property) (fset : function) : result cached_property :=
  __init__ (__get self) (Some fset) (__del self) None None.

(** [return self.__class__(self.__get, self.__set, fdel)]. *)
Definition deleter (self : cached_property) (fdel : function) : result cached_property :=
  __init__ (__get self) (__set self) (Some fdel) None None.

(** ** Reading the record of calls *)

Definition is_get (c : call) : bool :=
  match c with
  | CalledGet => true
  | _ => false
  end.

Definition is_del (c : call) : bool :=
  match c with
  | CalledDel _ => true
  | _ => false
  end.

(** How often the compute function, or the delete hook, has been called. *)
Definition computed (obj : instance) : nat := length (filter is_get (calls obj)).
Definition hooked (obj : instance) : nat := length (filter is_del (calls obj)).

(** A callable that leaves the slot [name] of the instance's dictionary as
    it finds it, whatever else it does to the instance. *)
Definition leaves_slot (name : string) (f : function) : Prop :=
  ∀ args d, (fn_call f args d).1 !! name = d !! name.

(** ** Sequences of accesses *)

(** [first = obj.attr; second = obj.attr]. *)
Definition read_twice (self : cached_property) : M (Value * Value) :=
  first ← __get__ self;
  second ← __get__ self;
  mret (first, second).

(** [obj.attr = value; obj.attr]. *)
Definition write_then_read (self : cached_property) (value : Value) : M Value :=
  __set__ self value;;
  __get__ self.

(** [del obj.attr; obj.attr]. *)
Definition delete_then_read (self : cached_property) : M Value :=
  __delete__ self;;
  __get__ self.

(** [first = obj.attr; second = obj.attr; del obj.attr; third = obj.attr]. *)
Definition read_read_delete_read (self : cached_property)
    : M (Value * Value * Value) :=
  first ← __get__ self;
  second ← __get__ self;
  __delete__ self;;
  third ← __get__ self;
  mret (first, second, third).

(** [obj.attr] read [n] times in a row, the values in the order read. *)
Fixpoint read_times (self : cached_property) (n : nat) : M (list Value) :=
  match n with
  | 0 => mret []
  | S n =>
      first ← __get__ self;
      rest ← read_times self n;
      mret (first :: rest)
  end.

(** [obj.attr = first; obj.attr = second; obj.attr]. *)
Definition write_write_read (self : cached_property) (first second : Value)
    : M Value :=
  __set__ self first;;
  __set__ self second;;
  __get__ self.

(** [obj.attr = value; del obj.attr]. *)
Definition write_then_delete (self : cached_property) (value : Value) : M unit :=
  __set__ self value;;
  __delete__ self.

(** [del obj.attr; del obj.attr]. *)
Definition delete_twice (self : cached_property) : M unit :=
  __delete__ self;;
  __delete__ self.


(** The decorators of the class docstring, one after the other:
    [self.setter(fset).deleter(fdel)], [self.deleter(fdel).setter(fset)] and
    [self.setter(first).setter(second)]. *)
Definition setter_then_deleter (self : cached_property) (fset fdel : function)
    : result cached_property :=
  result_bind (setter self fset) (λ with_setter, deleter with_setter fdel).

Definition deleter_then_setter (self : cached_property) (fset fdel : function)
    : result cached_property :=
  result_bind (deleter self fdel) (λ with_deleter, setter with_deleter fset).

Definition setter_twice (self : cached_property) (first second : function)
    : result cached_property :=
  result_bind (setter self first) (λ with_setter, setter with_setter second).

End cached_property.

(** ** The [connection] attribute of the class docstring

    Values are [None] and numbered connection objects. The compute function
    opens the next connection, counting on the instance how many it has
    opened, so that every call returns a connection of its own. *)

Definition opened (d : gmap string (option nat)) : nat :=
  match d !! "opened" with
  | Some (Some n) => n
  | _ => 0
  end.

Definition connection_fget : @function (option nat) :=
  {| fn_doc := Some "Open a connection.";
     fn_name := "connection";
     fn_module := "app";
     fn_call := λ _ d,
       (<["opened" := Some (S (opened d))]> d, Returns (Some (S (opened d)))) |}.

(** A compute function that fails. *)
Definition failing_fget : @function (option nat) :=
  {| fn_doc := None;
     fn_name := "connection";
     fn_module := "app";
     fn_call := λ _ d, (d, Raises (UserError "connection refused")) |}.

(** [if value is None: raise TypeError(...)], else [return value]. *)
Definition connection_fset : @function (option nat) :=
  {| fn_doc := None;
     fn_name := "connection";
     fn_module := "app";
     fn_call := λ args d,
       match args with
       | [Some n] => (d, Returns (Some n))
       | _ => (d, Raises (TypeError "Connection must be a connection"))
       end |}.

(** The hook of the docstring prints and returns [None]. *)
Definition connection_fdel : @function (option nat) :=
  {| fn_doc := None;
     fn_name := "connection";
     fn_module := "app";
     fn_call := λ _ d, (d, Returns None) |}.

(** A hook that fails. *)
Definition failing_fdel : @function (option nat) :=
  {| fn_doc := None;
     fn_name := "connection";
     fn_module := "app";
     fn_call := λ _ d, (d, Raises (UserError "close failed")) |}.

(** A hook that puts the value it is given back on the instance, and one
    that does so and then fails. *)
Definition restoring_fdel : @function (option nat) :=
  {| fn_doc := None;
     fn_name := "connection";
     fn_module := "app";
     fn_call := λ args d,
       match args with
       | [value] => (<["connection" := value]> d, Returns None)
       | _ => (d, Raises (TypeError "connection() takes 2 positional arguments"))
       end |}.

Definition restoring_failing_fdel : @function (option nat) :=
  {| fn_doc := None;
     fn_name := "connection";
     fn_module := "app";
     fn_call := λ args d,
       match args with
       | [value] => (<["connection" := value]> d, Raises (UserError "close failed"))
       | _ => (d, Raises (TypeError "connection() takes 2 positional arguments"))
       end |}.

(** A setter that stores something else than it is given: for the
    connection [n] it returns the connection [n + 100]. *)
Definition renumbering_fset : @function (option nat) :=
  {| fn_doc := None;
     fn_name := "connection";
     fn_module := "app";
     fn_call := λ args d,
       match args with
       | [Some n] => (d, Returns (Some (n + 100)))
       | _ => (d, Raises (TypeError "Connection must be a connection"))
       end |}.

(** [@cached_property def connection(self): ...], with and without the
    setter and the hooks, and with a class-level fallback. *)
Definition connection (fset fdel : option function) (class_attribute : option string)
    : @cached_property (option nat) :=
  {| __get := Some connection_fget; __set := fset; __del := fdel;
     __doc__ := fn_doc connection_fget;
     __name__ := "connection"; __module__ := "app";
     class_attribute := class_attribute |}.

(** [cached_property(connection, doc="The shared connection.",
    class_attribute="default_connection")]. *)
Definition shared_connection : @cached_property (option nat) :=
  {| __get := Some connection_fget; __set := None; __del := None;
     __doc__ := Some "The shared connection.";
     __name__ := "connection"; __module__ := "app";
     class_attribute := Some "default_connection" |}.



(** [@cached_property def connection(self): ...] with the compute function
    that fails. *)
Definition refused_connection : @cached_property (option nat) :=
  {| __get := Some failing_fget; __set := None; __del := None;
     __doc__ := None; __name__ := "connection"; __module__ := "app";
     class_attribute := None |}.

(** An instance that holds the connection [7] and the session [40]. *)
Definition holding_both : @instance (option nat) :=
  {| obj_dict := <["session" := Some 40]> {["connection" := Some 7]};
     calls := [] |}.

(** An instance on which nothing has happened yet, and one that holds the
    connection [7]. *)
Definition fresh : @instance (option nat) := {| obj_dict := ∅; calls := [] |}.

Definition holding : @instance (option nat) :=
  {| obj_dict := {["connection" := Some 7]}; calls := [] |}.

End Objects.

(** * Properties of [iter_mro_reversed] *)

Module IterMroReversed.
Import Objects.

Section loop.

Context {type : Type} `{EqDecision type}.

(** Once the flag is set, the rest of the linearization is yielded as it
    is. *)
Lemma loop_wanted (stop : type) classes :
  iter_mro_reversed_loop stop true classes = classes.
Proof.
  induction classes as [|subcls rest IH]; simpl; [done|]. by rewrite IH.
Qed.

(** The flag is never set when [stop] does not occur. *)
Lemma loop_stop_absent (stop : type) classes :
  stop ∉ classes → iter_mro_reversed_loop stop false classes = [].
Proof.
  induction classes as [|subcls rest IH]; simpl; [done|].
  intros [Hne Hrest]%not_elem_of_cons.
  rewrite bool_decide_eq_false_2; [by apply IH | congruence].
Qed.

(** The first occurrence of [stop] sets the flag: what precedes it and
    [stop] itself are dropped, what follows is yielded. *)
Lemma loop_stop_first (stop : type) before after :
  stop ∉ before →
  iter_mro_reversed_loop stop false (before ++ stop :: after) = after.
Proof.
  induction before as [|subcls rest IH]; simpl.
  - intros _. rewrite bool_decide_eq_true_2; [apply loop_wanted | done].
  - intros [Hne Hrest]%not_elem_of_cons.
    rewrite bool_decide_eq_false_2; [by apply IH | congruence].
Qed.

Variable mro : type → list type.

(** The walk in terms of the linearization: from [cls.__mro__ = derived ++
    stop :: bases], where [stop] is not among [bases], the walk yields
    [derived], most general class first. *)
Lemma iter_mro_reversed_split cls stop derived bases :
  mro cls = derived ++ stop :: bases →
  stop ∉ bases →
  iter_mro_reversed mro cls stop = reverse derived.
Proof.
  intros Hmro Hbases. unfold iter_mro_reversed.
  rewrite Hmro, reverse_app, reverse_cons, <-(assoc_L (++)). simpl.
  apply loop_stop_first. by rewrite elem_of_reverse.
Qed.

(** C1, as amended. With the target class itself as the stop class the walk
    yields nothing: the target is the first entry of its own linearization
    and occurs nowhere else in it, so it is the last class the loop sees,
    and the class that sets the flag is not yielded. *)
Theorem iter_mro_reversed_stop_is_target cls ancestors :
  mro cls = cls :: ancestors →
  cls ∉ ancestors →
  iter_mro_reversed mro cls cls = [].
Proof.
  intros Hmro Hfresh.
  by rewrite (iter_mro_reversed_split cls cls [] ancestors).
Qed.

(** C3. In a chain where [b] derives from [a] and [c] derives from [b]
    (each linearization is the class followed by the linearization of its
    base, without repetition), the walk over [c] with stop class [a] yields
    [b] and then [c], and with stop class [b] it yields [c] alone. *)
Theorem iter_mro_reversed_chain a b c :
  head (mro a) = Some a →
  mro b = b :: mro a →
  mro c = c :: mro b →
  NoDup (mro c) →
  iter_mro_reversed mro c a = [b; c] ∧ iter_mro_reversed mro c b = [c].
Proof.
  intros Ha Hb Hc Hnodup.
  destruct (mro a) as [|a' above] eqn:Hmro_a; simplify_eq/=.
  rewrite Hc, Hb in Hnodup.
  apply NoDup_cons in Hnodup as [_ Hnodup].
  apply NoDup_cons in Hnodup as [Hb_fresh Hnodup].
  apply NoDup_cons in Hnodup as [Ha_fresh _].
  split.
  - by rewrite (iter_mro_reversed_split c a [c; b] above); rewrite ?Hc, ?Hb.
  - by rewrite (iter_mro_reversed_split c b [c] (a :: above)); rewrite ?Hc, ?Hb.
Qed.

(** C4. When the stop class occurs nowhere in the linearization of the
    target, the walk yields nothing. *)
Theorem iter_mro_reversed_stop_absent cls stop :
  stop ∉ mro cls →
  iter_mro_reversed mro cls stop = [].
Proof.
  intros Habsent. apply loop_stop_absent. by rewrite elem_of_reverse.
Qed.

(** The walk yields the classes that precede the stop class in the
    linearization, most general first, the target class last. *)
Theorem iter_mro_reversed_yields_derived cls stop derived bases :
  mro cls = derived ++ stop :: bases →
  stop ∉ bases →
  iter_mro_reversed mro cls stop = reverse derived.
Proof. apply iter_mro_reversed_split. Qed.

(** The note of the docstring: with a base class of the target as the stop
    class, the last class yielded is the target itself. *)
Theorem iter_mro_reversed_ends_with_target cls stop ancestors :
  mro cls = cls :: ancestors →
  stop ∈ ancestors →
  last (iter_mro_reversed mro cls stop) = Some cls.
Proof.
  intros Hmro Hbase.
  apply list_elem_of_split_r in Hbase as (derived & bases & -> & Hbases).
  rewrite (iter_mro_reversed_split cls stop (cls :: derived) bases Hmro Hbases).
  by rewrite reverse_cons, last_snoc.
Qed.

(** ** What the walk never does *)

Lemma loop_suffix (stop : type) wanted classes :
  iter_mro_reversed_loop stop wanted classes `suffix_of` classes.
Proof.
  revert wanted.
  induction classes as [|subcls rest IH]; intros wanted; simpl; [done|].
  destruct wanted.
  - by rewrite loop_wanted.
  - by apply suffix_cons_r.
Qed.

(** Classes appended after the stop class are all yielded. *)
Lemma loop_app (stop : type) classes more :
  stop ∈ classes →
  iter_mro_reversed_loop stop false (classes ++ more) =
    iter_mro_reversed_loop stop false classes ++ more.
Proof.
  intros (before & after & -> & Hbefore)%list_elem_of_split_l.
  rewrite <-(assoc_L (++)). simpl.
  by rewrite !loop_stop_first.
Qed.

(** The walk is an end piece of the reversed linearization: it yields only
    classes of the linearization, each at most as often as it occurs there,
    in the reversed order, and once it has started it skips nothing up to
    the target. *)
Theorem iter_mro_reversed_suffix cls stop :
  iter_mro_reversed mro cls stop `suffix_of` reverse (mro cls).
Proof. apply loop_suffix. Qed.

(** In a linearization without repetition the stop class itself is never
    yielded, and no class is yielded twice. *)
Theorem iter_mro_reversed_excludes_stop cls stop :
  NoDup (mro cls) →
  (stop ∉ iter_mro_reversed mro cls stop) ∧
  NoDup (iter_mro_reversed mro cls stop).
Proof.
  intros Hnodup. rewrite <-(reverse_Permutation (mro cls)) in Hnodup.
  unfold iter_mro_reversed.
  destruct (decide (stop ∈ reverse (mro cls))) as [Hin|Hout].
  - apply list_elem_of_split_l in Hin as (before & after & Hsplit & Hbefore).
    rewrite Hsplit in Hnodup |- *. rewrite (loop_stop_first _ _ _ Hbefore).
    apply NoDup_app in Hnodup as (_ & _ & Hnodup).
    by apply NoDup_cons in Hnodup.
  - rewrite (loop_stop_absent _ _ Hout). split; [apply not_elem_of_nil|].
    apply NoDup_nil_2.
Qed.

(** With a class that derives from [base] alone (its linearization is the
    class followed by the linearization of [base]), and a stop class from
    the linearization of [base], the walk over the class is the walk over
    [base] followed by the class. *)
Theorem iter_mro_reversed_subclass cls base stop :
  mro cls = cls :: mro base →
  stop ∈ mro base →
  iter_mro_reversed mro cls stop = iter_mro_reversed mro base stop ++ [cls].
Proof.
  intros Hmro Hstop. unfold iter_mro_reversed.
  rewrite Hmro, reverse_cons. apply loop_app. by rewrite elem_of_reverse.
Qed.

(** For a class that heads its own linearization and does not recur in it,
    the walk yields nothing exactly when the stop class is not one of the
    classes after the target: when it is absent, or the target itself. *)
Theorem iter_mro_reversed_empty_iff cls stop ancestors :
  mro cls = cls :: ancestors →
  cls ∉ ancestors →
  iter_mro_reversed mro cls stop = [] ↔ stop ∉ ancestors.
Proof.
  intros Hmro Hfresh. split.
  - intros Hempty Hbase.
    apply list_elem_of_split_r in Hbase as (derived & bases & -> & Hbases).
    rewrite (iter_mro_reversed_split cls stop (cls :: derived) bases Hmro Hbases)
      in Hempty.
    rewrite reverse_cons in Hempty. by destruct (reverse derived).
  - intros Hout. destruct (decide (stop = cls)) as [->|Hne].
    + by rewrite (iter_mro_reversed_split cls cls [] ancestors).
    + unfold iter_mro_reversed. apply loop_stop_absent.
      rewrite elem_of_reverse, Hmro. by apply not_elem_of_cons.
Qed.

End loop.

(** The two examples of the docstring: [list(iter_mro_reversed(C, object))]
    is [[A, B, C]] and [list(iter_mro_reversed(C, A))] is [[B, C]]. *)
Theorem docstring_examples :
  iter_mro_reversed example_mro C Object = [A; B; C] ∧
  iter_mro_reversed example_mro C A = [B; C].
Proof. split; reflexivity. Qed.

(** C1 as the specification states it fails on the classes of the
    docstring: the walk over [C] with stop class [C] does not yield [C]. *)
Lemma iter_mro_reversed_stop_is_target_not_singleton :
  iter_mro_reversed example_mro C C ≠ [C].
Proof. by vm_compute. Qed.

Lemma iter_mro_reversed_stop_is_target_example :
  (example_mro C = C :: [B; A; Object]) ∧
  (C ∉ [B; A; Object]) ∧
  iter_mro_reversed example_mro C C = [].
Proof.
  split; [reflexivity|]. split; [compute_done|].
  apply (iter_mro_reversed_stop_is_target example_mro C [B; A; Object]);
    [reflexivity | compute_done].
Defined.

Lemma iter_mro_reversed_chain_example :
  iter_mro_reversed example_mro C A = [B; C] ∧
  iter_mro_reversed example_mro C B = [C].
Proof.
  apply (iter_mro_reversed_chain example_mro A B C);
    [reflexivity | reflexivity | reflexivity | compute_done].
Defined.

Lemma iter_mro_reversed_stop_absent_example :
  (Other ∉ example_mro C) ∧ iter_mro_reversed example_mro C Other = [].
Proof.
  split; [compute_done|].
  apply (iter_mro_reversed_stop_absent example_mro C Other). compute_done.
Defined.

Lemma iter_mro_reversed_yields_derived_example :
  iter_mro_reversed example_mro C A = reverse [C; B].
Proof.
  apply (iter_mro_reversed_yields_derived example_mro C A [C; B] [Object]);
    [reflexivity | compute_done].
Defined.

Lemma iter_mro_reversed_ends_with_target_example :
  last (iter_mro_reversed example_mro C Object) = Some C.
Proof.
  apply (iter_mro_reversed_ends_with_target example_mro C Object [B; A; Object]);
    [reflexivity | compute_done].
Defined.

Lemma iter_mro_reversed_excludes_stop_example :
  (A ∉ iter_mro_reversed example_mro C A) ∧
  NoDup (iter_mro_reversed example_mro C A).
Proof.
  apply (iter_mro_reversed_excludes_stop example_mro C A). compute_done.
Defined.

Lemma iter_mro_reversed_subclass_example :
  iter_mro_reversed example_mro C A = iter_mro_reversed example_mro B A ++ [C].
Proof.
  apply (iter_mro_reversed_subclass example_mro C B A);
    [reflexivity | compute_done].
Defined.

Lemma iter_mro_reversed_empty_iff_example :
  iter_mro_reversed example_mro C Other = [] ↔ Other ∉ [B; A; Object].
Proof.
  apply (iter_mro_reversed_empty_iff example_mro C Other [B; A; Object]);
    [reflexivity | compute_done].
Defined.

End IterMroReversed.

(** * Properties of [cached_property] *)

Module CachedProperty.
Import Objects.

Section descriptor.

Context {Value : Type}.
Implicit Types (self : @cached_property Value) (obj : @instance Value).
Implicit Types (fget fset fdel : option (@function Value)).
Implicit Types (f g h : @function Value).
Implicit Types (value stored : Value) (d : gmap string Value).

(** ** Construction *)

(** [__init__] reads [fget.__name__]: a descriptor exists only where a
    compute function was given, and it carries that function's name,
    module and (unless [doc] overrides it) docstring. *)
Lemma init_returns fget fset fdel doc class_attr self :
  __init__ fget fset fdel doc class_attr = Returns self →
  ∃ f, fget = Some f ∧
    self = {| __get := Some f; __set := fset; __del := fdel;
              __doc__ := if truthy doc then doc else fn_doc f;
              __name__ := fn_name f; __module__ := fn_module f;
              class_attribute := class_attr |}.
Proof.
  destruct fget as [f|]; unfold __init__; simpl.
  - intros Hself. exists f. split; [done|].
    destruct (truthy doc); simpl in Hself; by simplify_eq.
  - by destruct (truthy doc).
Qed.

Lemma init_with_fget f fset fdel doc class_attr :
  __init__ (Some f) fset fdel doc class_attr =
    Returns {| __get := Some f; __set := fset; __del := fdel;
               __doc__ := if truthy doc then doc else fn_doc f;
               __name__ := fn_name f; __module__ := fn_module f;
               class_attribute := class_attr |}.
Proof. unfold __init__. by destruct (truthy doc). Qed.

(** ** One access at a time *)

(** A read of a stored value returns it and touches nothing. *)
Lemma get_stored self obj value :
  obj_dict obj !! __name__ self = Some value →
  __get__ self obj = (obj, Returns value).
Proof.
  intros Hstored. unfold __get__, try_except_KeyError, dict_getitem.
  by rewrite Hstored.
Qed.

(** A read with nothing stored calls the compute function and stores what
    it returns. *)
Lemma get_computes self obj f d value :
  __get self = Some f →
  obj_dict obj !! __name__ self = None →
  fn_call f [] (obj_dict obj) = (d, Returns value) →
  __get__ self obj =
    ({| obj_dict := <[__name__ self := value]> d;
        calls := calls obj ++ [CalledGet] |}, Returns value).
Proof.
  intros Hget Hmissing Hcall.
  unfold __get__, try_except_KeyError, dict_getitem. rewrite Hmissing.
  unfold mbind, M_bind, bind, call_get, invoke. by rewrite Hget, Hcall.
Qed.

(** An exception of the compute function leaves nothing stored by the
    descriptor. *)
Lemma get_compute_raises self obj f d e :
  __get self = Some f →
  obj_dict obj !! __name__ self = None →
  fn_call f [] (obj_dict obj) = (d, Raises e) →
  __get__ self obj =
    ({| obj_dict := d; calls := calls obj ++ [CalledGet] |}, Raises e).
Proof.
  intros Hget Hmissing Hcall.
  unfold __get__, try_except_KeyError, dict_getitem. rewrite Hmissing.
  unfold mbind, M_bind, bind, call_get, invoke. by rewrite Hget, Hcall.
Qed.

Lemma set_without_setter self obj value :
  __set self = None →
  __set__ self value obj =
    ({| obj_dict := <[__name__ self := value]> (obj_dict obj);
        calls := calls obj |}, Returns tt).
Proof. intros Hset. unfold __set__. by rewrite Hset. Qed.

Lemma set_with_setter self obj f value d stored :
  __set self = Some f →
  fn_call f [value] (obj_dict obj) = (d, Returns stored) →
  __set__ self value obj =
    ({| obj_dict := <[__name__ self := stored]> d;
        calls := calls obj ++ [CalledSet value] |}, Returns tt).
Proof.
  intros Hset Hcall. unfold __set__. rewrite Hset.
  unfold mbind, M_bind, bind, invoke. by rewrite Hcall.
Qed.

Lemma set_setter_raises self obj f value d e :
  __set self = Some f →
  fn_call f [value] (obj_dict obj) = (d, Raises e) →
  __set__ self value obj =
    ({| obj_dict := d; calls := calls obj ++ [CalledSet value] |}, Raises e).
Proof.
  intros Hset Hcall. unfold __set__. rewrite Hset.
  unfold mbind, M_bind, bind, invoke. by rewrite Hcall.
Qed.

Lemma delete_nothing_stored self obj :
  obj_dict obj !! __name__ self = None →
  __delete__ self obj = (obj, Returns tt).
Proof.
  intros Hmissing. unfold __delete__, mbind, M_bind, bind, dict_pop.
  rewrite Hmissing. by destruct (__del self).
Qed.

Lemma delete_without_hook self obj value :
  __del self = None →
  obj_dict obj !! __name__ self = Some value →
  __delete__ self obj =
    ({| obj_dict := delete (__name__ self) (obj_dict obj);
        calls := calls obj |}, Returns tt).
Proof.
  intros Hdel Hstored. unfold __delete__, mbind, M_bind, bind, dict_pop.
  by rewrite Hstored, Hdel.
Qed.

(** With a hook and a stored value, the hook runs on the dictionary from
    which the value is already gone, and decides the outcome. *)
Lemma delete_with_hook self obj f value :
  __del self = Some f →
  obj_dict obj !! __name__ self = Some value →
  __delete__ self obj =
    let '(d, outcome) :=
      fn_call f [value] (delete (__name__ self) (obj_dict obj)) in
    ({| obj_dict := d; calls := calls obj ++ [CalledDel value] |},
     match outcome with
     | Returns _ => Returns tt
     | Raises e => Raises e
     end).
Proof.
  intros Hdel Hstored.
  unfold __delete__, mbind, M_bind, bind, dict_pop, invoke.
  rewrite Hstored, Hdel. simpl.
  by destruct (fn_call f _ _) as [d [ignored|e]].
Qed.

Lemma computed_snoc_get obj d :
  computed {| obj_dict := d; calls := calls obj ++ [CalledGet] |} =
    S (computed obj).
Proof.
  unfold computed. simpl. rewrite filter_app, length_app. simpl. lia.
Qed.

Lemma computed_snoc_other obj d made :
  is_get made = false →
  computed {| obj_dict := d; calls := calls obj ++ [made] |} = computed obj.
Proof.
  intros Hother. unfold computed. simpl. rewrite filter_app, length_app.
  destruct made; [done| |]; simpl; lia.
Qed.

Lemma computed_delete self obj obj' outcome :
  __delete__ self obj = (obj', outcome) → computed obj' = computed obj.
Proof.
  destruct (obj_dict obj !! __name__ self) as [stored|] eqn:Hstored.
  - destruct (__del self) as [f|] eqn:Hdel.
    + rewrite (delete_with_hook self obj f stored Hdel Hstored).
      destruct (fn_call f _ _) as [d r]. intros [= <- _].
      by apply computed_snoc_other.
    + rewrite (delete_without_hook self obj stored Hdel Hstored).
      by intros [= <- _].
  - rewrite (delete_nothing_stored self obj Hstored). by intros [= <- _].
Qed.

(** ** The claims *)

(** C2, as amended. Constructing the descriptor without a compute function
    does not succeed: whatever the other arguments are, [__init__] raises
    [AttributeError] when it reads the name of the compute function, so the
    error is there at construction and no descriptor is left to read. *)
Theorem init_without_fget_raises fset fdel doc class_attr :
  __init__ None fset fdel doc class_attr =
    Raises (AttributeError "'NoneType' object has no attribute '__name__'").
Proof. unfold __init__. by destruct (truthy doc). Qed.

(** C5, as amended. Two reads in a row call the compute function exactly
    once when the instance holds no value for the attribute before them
    and the compute function returns: both reads return what it returned,
    which stays stored. When the instance already holds a value, both
    reads return that value and the compute function is not called. *)
Theorem read_twice_computes_at_first_read self obj f :
  __get self = Some f →
  (∀ d value,
     obj_dict obj !! __name__ self = None →
     fn_call f [] (obj_dict obj) = (d, Returns value) →
     ∃ obj',
       read_twice self obj = (obj', Returns (value, value)) ∧
       computed obj' = S (computed obj) ∧
       obj_dict obj' !! __name__ self = Some value) ∧
  (∀ stored,
     obj_dict obj !! __name__ self = Some stored →
     read_twice self obj = (obj, Returns (stored, stored))).
Proof.
  intros Hget. split.
  - intros d value Hmissing Hcall.
    eexists. unfold read_twice, mbind, M_bind, bind.
    rewrite (get_computes self obj f d value Hget Hmissing Hcall).
    rewrite (get_stored self _ value) by apply lookup_insert_eq.
    split; [reflexivity|]. split; [apply computed_snoc_get|].
    apply lookup_insert_eq.
  - intros stored Hstored. unfold read_twice, mbind, M_bind, bind.
    by rewrite !(get_stored self obj stored Hstored).
Qed.

(** C6. A write followed by a read returns the written value when the
    descriptor has no setter, and what the setter returned when it has
    one, whatever the instance held before; that read does not call the
    compute function. *)
Theorem write_then_read_returns_written self obj value :
  (__set self = None →
   ∃ obj', write_then_read self value obj = (obj', Returns value) ∧
           computed obj' = computed obj) ∧
  (∀ f d stored,
     __set self = Some f →
     fn_call f [value] (obj_dict obj) = (d, Returns stored) →
     ∃ obj', write_then_read self value obj = (obj', Returns stored) ∧
             computed obj' = computed obj).
Proof.
  split.
  - intros Hset. eexists. unfold write_then_read, mbind, M_bind, bind.
    rewrite (set_without_setter self obj value Hset).
    rewrite (get_stored self _ value) by apply lookup_insert_eq.
    by split.
  - intros f d stored Hset Hcall. eexists.
    unfold write_then_read, mbind, M_bind, bind.
    rewrite (set_with_setter self obj f value d stored Hset Hcall).
    rewrite (get_stored self _ stored) by apply lookup_insert_eq.
    split; [reflexivity|]. by apply computed_snoc_other.
Qed.

(** C7, as amended. On an instance that holds a value for the attribute,
    with no delete hook or with one that does not itself store the
    attribute: however the delete ends, nothing is stored under the
    attribute's name after it, and the next read calls the compute
    function once more; the outcome of that read is the outcome of the
    call, not the deleted value. *)
Theorem delete_then_read_recomputes self obj obj1 obj2 f stored deleted read :
  __get self = Some f →
  obj_dict obj !! __name__ self = Some stored →
  (∀ h, __del self = Some h → leaves_slot (__name__ self) h) →
  __delete__ self obj = (obj1, deleted) →
  __get__ self obj1 = (obj2, read) →
  obj_dict obj1 !! __name__ self = None ∧
  computed obj2 = S (computed obj) ∧
  read = (fn_call f [] (obj_dict obj1)).2.
Proof.
  intros Hget Hstored Hframe Hdelete Hread.
  assert (obj_dict obj1 !! __name__ self = None) as Hgone.
  { destruct (__del self) as [h|] eqn:Hdel.
    - rewrite (delete_with_hook self obj h stored Hdel Hstored) in Hdelete.
      specialize (Hframe h eq_refl [stored]
                    (delete (__name__ self) (obj_dict obj))).
      destruct (fn_call h _ _) as [d1 r]. simpl in Hframe.
      injection Hdelete as <- _. simpl.
      by rewrite Hframe, lookup_delete_eq.
    - rewrite (delete_without_hook self obj stored Hdel Hstored) in Hdelete.
      injection Hdelete as <- _. apply lookup_delete_eq. }
  split; [done|].
  rewrite <-(computed_delete self obj obj1 deleted Hdelete).
  destruct (fn_call f [] (obj_dict obj1)) as [d [value|e]] eqn:Hcall.
  - rewrite (get_computes self obj1 f d value Hget Hgone Hcall) in Hread.
    injection Hread as <- <-. split; [apply computed_snoc_get | done].
  - rewrite (get_compute_raises self obj1 f d e Hget Hgone Hcall) in Hread.
    injection Hread as <- <-. split; [apply computed_snoc_get | done].
Qed.

(** C8. On an instance that holds no value for the attribute, a delete
    returns without calling the delete hook, configured or not: the
    instance, with its record of calls, is as before. *)
Theorem delete_nothing_stored_skips_hook self obj :
  obj_dict obj !! __name__ self = None →
  __delete__ self obj = (obj, Returns tt) ∧
  hooked (__delete__ self obj).1 = hooked obj.
Proof.
  intros Hmissing. by rewrite (delete_nothing_stored self obj Hmissing).
Qed.

(** C9. From a descriptor constructed with a class-level fallback name,
    [setter] and [deleter] return descriptors whose [class_attribute] is
    [None] and whose docstring is the one of the compute function, whatever
    [doc] the original was given; read on the class, each gives itself. *)
Theorem rebinding_drops_class_attribute fget fset fdel doc attr self g h type :
  __init__ fget fset fdel doc (Some attr) = Returns self →
  ∃ f with_setter with_deleter,
    fget = Some f ∧
    setter self g = Returns with_setter ∧
    deleter self h = Returns with_deleter ∧
    class_attribute with_setter = None ∧
    class_attribute with_deleter = None ∧
    __doc__ with_setter = fn_doc f ∧
    __doc__ with_deleter = fn_doc f ∧
    __get__class with_setter type = Returns (Descriptor with_setter) ∧
    __get__class with_deleter type = Returns (Descriptor with_deleter).
Proof.
  intros (f & -> & ->)%init_returns.
  exists f. unfold setter, deleter. simpl. rewrite !init_with_fget. simpl.
  do 2 eexists. do 7 (split; [reflexivity|]).
  unfold __get__class. simpl. by destruct type.
Qed.

(** C10, as amended. On an instance that holds a value for the attribute,
    with a hook that raises: the hook is run on the dictionary from which
    the value is already removed, its exception is the outcome of the
    delete, and the instance is left as the hook left it. The descriptor
    does not put the value back, so nothing is stored under the
    attribute's name afterwards unless the hook itself stored it. *)
Theorem delete_hook_raises_after_removal self obj h stored d e :
  __del self = Some h →
  obj_dict obj !! __name__ self = Some stored →
  fn_call h [stored] (delete (__name__ self) (obj_dict obj)) = (d, Raises e) →
  __delete__ self obj =
    ({| obj_dict := d; calls := calls obj ++ [CalledDel stored] |}, Raises e) ∧
  (leaves_slot (__name__ self) h → d !! __name__ self = None).
Proof.
  intros Hdel Hstored Hcall.
  rewrite (delete_with_hook self obj h stored Hdel Hstored), Hcall.
  split; [done|]. intros Hframe.
  specialize (Hframe [stored] (delete (__name__ self) (obj_dict obj))).
  rewrite Hcall in Hframe. simpl in Hframe.
  by rewrite Hframe, lookup_delete_eq.
Qed.

(** ** Further properties *)

Lemma hooked_snoc_del obj d value :
  hooked {| obj_dict := d; calls := calls obj ++ [CalledDel value] |} =
    S (hooked obj).
Proof.
  unfold hooked. simpl. rewrite filter_app, length_app. simpl. lia.
Qed.

(** After a delete, however it ends, nothing is stored under the
    attribute's name, unless the hook stores it. *)
Lemma delete_removes self obj obj1 deleted :
  (∀ h, __del self = Some h → leaves_slot (__name__ self) h) →
  __delete__ self obj = (obj1, deleted) →
  obj_dict obj1 !! __name__ self = None.
Proof.
  intros Hframe Hdelete.
  destruct (obj_dict obj !! __name__ self) as [stored|] eqn:Hstored.
  - destruct (__del self) as [h|] eqn:Hdel.
    + rewrite (delete_with_hook self obj h stored Hdel Hstored) in Hdelete.
      specialize (Hframe h eq_refl [stored]
                    (delete (__name__ self) (obj_dict obj))).
      destruct (fn_call h _ _) as [d1 r]. simpl in Hframe.
      injection Hdelete as <- _. simpl.
      by rewrite Hframe, lookup_delete_eq.
    + rewrite (delete_without_hook self obj stored Hdel Hstored) in Hdelete.
      injection Hdelete as <- _. apply lookup_delete_eq.
  - rewrite (delete_nothing_stored self obj Hstored) in Hdelete.
    by injection Hdelete as <- _.
Qed.

Lemma read_times_stored self obj stored n :
  obj_dict obj !! __name__ self = Some stored →
  read_times self n obj = (obj, Returns (replicate n stored)).
Proof.
  intros Hstored. induction n as [|n IH]; simpl; [done|].
  unfold mbind, M_bind, bind.
  by rewrite (get_stored self obj stored Hstored), IH.
Qed.



(** The two decorators can be applied in either order with the same
    result, a descriptor with both hooks; and of two setters the later one
    replaces the earlier. *)
Theorem rebinding_chain fget fset fdel doc class_attr self g g' h :
  __init__ fget fset fdel doc class_attr = Returns self →
  setter_then_deleter self g h = deleter_then_setter self g h ∧
  (∃ both,
     setter_then_deleter self g h = Returns both ∧
     __get both = __get self ∧ __set both = Some g ∧ __del both = Some h) ∧
  setter_twice self g g' = setter self g'.
Proof.
  intros (f & -> & ->)%init_returns.
  unfold setter_then_deleter, deleter_then_setter, setter_twice.
  unfold setter, deleter. simpl. rewrite !init_with_fget. simpl.
  rewrite ?init_with_fget. split; [done|]. split; [|done].
  eexists. by repeat split.
Qed.

(** A failure of the compute function is not cached. Its exception is the
    outcome of the read and the descriptor stores nothing; unless the
    compute function stored the attribute itself, the next read calls it
    again. *)
Theorem failed_compute_is_not_cached self obj f d e :
  __get self = Some f →
  obj_dict obj !! __name__ self = None →
  fn_call f [] (obj_dict obj) = (d, Raises e) →
  __get__ self obj =
    ({| obj_dict := d; calls := calls obj ++ [CalledGet] |}, Raises e) ∧
  (d !! __name__ self = None →
   ∀ obj2 read,
     __get__ self {| obj_dict := d; calls := calls obj ++ [CalledGet] |}
       = (obj2, read) →
     computed obj2 = S (S (computed obj)) ∧ read = (fn_call f [] d).2).
Proof.
  intros Hget Hmissing Hcall.
  split; [by apply (get_compute_raises self obj f)|].
  intros Hstill obj2 read Hread.
  set (obj1 := {| obj_dict := d; calls := calls obj ++ [CalledGet] |}) in *.
  assert (computed obj1 = S (computed obj)) as Hfirst
    by apply computed_snoc_get.
  destruct (fn_call f [] d) as [d2 [value|e2]] eqn:Hagain.
  - rewrite (get_computes self obj1 f d2 value Hget Hstill Hagain) in Hread.
    injection Hread as <- <-. split; [|done].
    rewrite <-Hfirst. apply (computed_snoc_get obj1).
  - rewrite (get_compute_raises self obj1 f d2 e2 Hget Hstill Hagain) in Hread.
    injection Hread as <- <-. split; [|done].
    rewrite <-Hfirst. apply (computed_snoc_get obj1).
Qed.

(** A write that the setter rejects stores nothing: the exception of the
    setter is the outcome, and, unless the setter touched the attribute
    itself, a value stored before is still what a read returns. *)
Theorem rejected_write_keeps_value self obj f value d e :
  __set self = Some f →
  fn_call f [value] (obj_dict obj) = (d, Raises e) →
  __set__ self value obj =
    ({| obj_dict := d; calls := calls obj ++ [CalledSet value] |}, Raises e) ∧
  (leaves_slot (__name__ self) f →
   ∀ stored,
     obj_dict obj !! __name__ self = Some stored →
     __get__ self {| obj_dict := d; calls := calls obj ++ [CalledSet value] |}
       = ({| obj_dict := d; calls := calls obj ++ [CalledSet value] |},
          Returns stored)).
Proof.
  intros Hset Hcall. split; [by apply (set_setter_raises self obj f)|].
  intros Hframe stored Hstored. apply get_stored. simpl.
  specialize (Hframe [value] (obj_dict obj)). rewrite Hcall in Hframe.
  simpl in Hframe. by rewrite Hframe.
Qed.


(** However often the attribute is read in a row, the compute function is
    called once, at the first read, and all reads return what it
    returned. *)
Theorem read_times_computes_once self obj f d value n :
  __get self = Some f →
  obj_dict obj !! __name__ self = None →
  fn_call f [] (obj_dict obj) = (d, Returns value) →
  ∃ obj',
    read_times self (S n) obj = (obj', Returns (replicate (S n) value)) ∧
    computed obj' = S (computed obj).
Proof.
  intros Hget Hmissing Hcall. eexists. simpl.
  unfold mbind, M_bind, bind.
  rewrite (get_computes self obj f d value Hget Hmissing Hcall).
  rewrite (read_times_stored self _ value n) by apply lookup_insert_eq.
  split; [reflexivity | apply computed_snoc_get].
Qed.

(** Read, read, delete, read: the first two reads return what the first
    call of the compute function returned, the read after the delete
    returns what the second call returned, and there is no third call. *)
Theorem read_read_delete_read_computes_twice self obj obj1 f d1 d2 first third :
  __get self = Some f →
  obj_dict obj !! __name__ self = None →
  fn_call f [] (obj_dict obj) = (d1, Returns first) →
  (∀ h, __del self = Some h → leaves_slot (__name__ self) h) →
  __delete__ self {| obj_dict := <[__name__ self := first]> d1;
                     calls := calls obj ++ [CalledGet] |}
    = (obj1, Returns tt) →
  fn_call f [] (obj_dict obj1) = (d2, Returns third) →
  ∃ obj',
    read_read_delete_read self obj = (obj', Returns (first, first, third)) ∧
    computed obj' = S (S (computed obj)).
Proof.
  intros Hget Hmissing Hcall1 Hframe Hdelete Hcall2.
  pose proof (delete_removes self _ obj1 _ Hframe Hdelete) as Hgone.
  eexists. unfold read_read_delete_read, mbind, M_bind, bind.
  rewrite (get_computes self obj f d1 first Hget Hmissing Hcall1).
  rewrite (get_stored self _ first) by apply lookup_insert_eq.
  rewrite Hdelete.
  rewrite (get_computes self obj1 f d2 third Hget Hgone Hcall2).
  split; [reflexivity|].
  rewrite computed_snoc_get, (computed_delete self _ obj1 _ Hdelete).
  by rewrite computed_snoc_get.
Qed.

(** The methods of a descriptor change no slot of the instance but its
    own: a slot under another name is after a read, a write or a delete
    what it was before, as long as the callables of the descriptor leave
    that slot alone. *)
Theorem other_slots_untouched self obj key value :
  key ≠ __name__ self →
  (∀ f, __get self = Some f ∨ __set self = Some f ∨ __del self = Some f →
        leaves_slot key f) →
  obj_dict (__get__ self obj).1 !! key = obj_dict obj !! key ∧
  obj_dict (__set__ self value obj).1 !! key = obj_dict obj !! key ∧
  obj_dict (__delete__ self obj).1 !! key = obj_dict obj !! key.
Proof.
  intros Hkey Hframe. split; [|split].
  - destruct (obj_dict obj !! __name__ self) as [stored|] eqn:Hstored.
    { by rewrite (get_stored self obj stored Hstored). }
    unfold __get__, try_except_KeyError, dict_getitem. rewrite Hstored.
    unfold mbind, M_bind, bind, call_get.
    destruct (__get self) as [f|] eqn:Hget; [|done].
    specialize (Hframe f (or_introl eq_refl) [] (obj_dict obj)).
    unfold invoke. destruct (fn_call f _ _) as [d [computed_value|e]];
      simpl in *; [|done].
    by rewrite lookup_insert_ne.
  - unfold __set__, mbind, M_bind, bind.
    destruct (__set self) as [f|] eqn:Hset; simpl.
    + specialize (Hframe f (or_intror (or_introl eq_refl)) [value] (obj_dict obj)).
      unfold invoke. destruct (fn_call f _ _) as [d [stored|e]];
        simpl in *; [|done].
      by rewrite lookup_insert_ne.
    + by rewrite lookup_insert_ne.
  - destruct (obj_dict obj !! __name__ self) as [stored|] eqn:Hstored.
    2: { by rewrite (delete_nothing_stored self obj Hstored). }
    destruct (__del self) as [h|] eqn:Hdel.
    + rewrite (delete_with_hook self obj h stored Hdel Hstored).
      specialize (Hframe h (or_intror (or_intror eq_refl)) [stored]
                    (delete (__name__ self) (obj_dict obj))).
      destruct (fn_call h _ _) as [d r]. simpl in *.
      by rewrite Hframe, lookup_delete_ne.
    + rewrite (delete_without_hook self obj stored Hdel Hstored). simpl.
      by rewrite lookup_delete_ne.
Qed.


(** Of two writes in a row the second one decides what is read: the second
    value without a setter, and with a setter what it returned for the
    second value. *)
Theorem write_write_read_returns_last self obj first second :
  (__set self = None →
   ∃ obj', write_write_read self first second obj = (obj', Returns second) ∧
           computed obj' = computed obj) ∧
  (∀ f d1 d2 stored1 stored2,
     __set self = Some f →
     fn_call f [first] (obj_dict obj) = (d1, Returns stored1) →
     fn_call f [second] (<[__name__ self := stored1]> d1)
       = (d2, Returns stored2) →
     ∃ obj', write_write_read self first second obj = (obj', Returns stored2) ∧
             computed obj' = computed obj).
Proof.
  split.
  - intros Hset. eexists. unfold write_write_read, mbind, M_bind, bind.
    rewrite (set_without_setter self obj first Hset).
    rewrite (set_without_setter self _ second Hset).
    rewrite (get_stored self _ second) by apply lookup_insert_eq.
    by split.
  - intros f d1 d2 stored1 stored2 Hset Hcall1 Hcall2. eexists.
    unfold write_write_read, mbind, M_bind, bind.
    rewrite (set_with_setter self obj f first d1 stored1 Hset Hcall1).
    set (obj1 := {| obj_dict := <[__name__ self := stored1]> d1;
                    calls := calls obj ++ [CalledSet first] |}).
    rewrite (set_with_setter self obj1 f second d2 stored2 Hset Hcall2).
    rewrite (get_stored self _ stored2) by apply lookup_insert_eq.
    split; [reflexivity|].
    rewrite (computed_snoc_other obj1 _ (CalledSet second) eq_refl).
    apply (computed_snoc_other obj _ (CalledSet first) eq_refl).
Qed.

(** The delete hook is given the stored value: after a write through a
    setter that is what the setter returned, not what was written. The
    hook runs on the dictionary as the setter left it, without the
    attribute. *)
Theorem write_then_delete_hooks_stored self obj f h value stored d :
  __set self = Some f →
  __del self = Some h →
  fn_call f [value] (obj_dict obj) = (d, Returns stored) →
  ∃ obj' deleted,
    write_then_delete self value obj = (obj', deleted) ∧
    calls obj' = calls obj ++ [CalledSet value; CalledDel stored] ∧
    obj_dict obj' = (fn_call h [stored] (delete (__name__ self) d)).1.
Proof.
  intros Hset Hdel Hcall.
  unfold write_then_delete, mbind, M_bind, bind.
  rewrite (set_with_setter self obj f value d stored Hset Hcall).
  rewrite (delete_with_hook self _ h stored Hdel) by apply lookup_insert_eq.
  simpl. rewrite delete_insert_eq.
  destruct (fn_call h _ _) as [d' outcome]. do 2 eexists. simpl.
  split; [reflexivity|]. split; [|done]. by rewrite <-(assoc_L (++)).
Qed.

(** A second delete right after a delete that returned does nothing: the
    instance stays as the first delete left it, so the hook is called once
    at most. *)
Theorem delete_twice_hooks_once self obj obj1 :
  (∀ h, __del self = Some h → leaves_slot (__name__ self) h) →
  __delete__ self obj = (obj1, Returns tt) →
  delete_twice self obj = (obj1, Returns tt) ∧
  hooked obj1 ≤ S (hooked obj).
Proof.
  intros Hframe Hdelete.
  pose proof (delete_removes self obj obj1 _ Hframe Hdelete) as Hgone.
  split.
  - unfold delete_twice, mbind, M_bind, bind. rewrite Hdelete.
    apply (delete_nothing_stored self obj1 Hgone).
  - destruct (obj_dict obj !! __name__ self) as [stored|] eqn:Hstored.
    + destruct (__del self) as [h|] eqn:Hdel.
      * rewrite (delete_with_hook self obj h stored Hdel Hstored) in Hdelete.
        destruct (fn_call h _ _) as [d r]. injection Hdelete as <- _.
        by rewrite hooked_snoc_del.
      * rewrite (delete_without_hook self obj stored Hdel Hstored) in Hdelete.
        injection Hdelete as <-. unfold hooked. simpl. lia.
    + rewrite (delete_nothing_stored self obj Hstored) in Hdelete.
      injection Hdelete as <-. lia.
Qed.

End descriptor.

(** ** The properties on the [connection] attribute *)


Lemma rebinding_chain_example :
  setter_then_deleter shared_connection connection_fset connection_fdel
    = deleter_then_setter shared_connection connection_fset connection_fdel ∧
  (∃ both,
     setter_then_deleter shared_connection connection_fset connection_fdel
       = Returns both ∧
     __get both = __get shared_connection ∧
     __set both = Some connection_fset ∧
     __del both = Some connection_fdel) ∧
  setter_twice shared_connection connection_fset renumbering_fset
    = setter shared_connection renumbering_fset.
Proof.
  apply (rebinding_chain
           (Some connection_fget) None None (Some "The shared connection.")
           (Some "default_connection") shared_connection
           connection_fset renumbering_fset connection_fdel).
  reflexivity.
Defined.

Lemma failed_compute_is_not_cached_example :
  __get__ refused_connection fresh =
    ({| obj_dict := ∅; calls := calls fresh ++ [CalledGet] |},
     Raises (UserError "connection refused")) ∧
  ((∅ : gmap string (option nat)) !! "connection" = None →
   ∀ obj2 read,
     __get__ refused_connection
       {| obj_dict := ∅; calls := calls fresh ++ [CalledGet] |}
       = (obj2, read) →
     computed obj2 = S (S (computed fresh)) ∧
     read = (fn_call failing_fget [] ∅).2).
Proof.
  apply (failed_compute_is_not_cached refused_connection fresh failing_fget
           ∅ (UserError "connection refused"));
    reflexivity.
Defined.

Lemma rejected_write_keeps_value_example :
  __set__ (connection (Some connection_fset) None None) None holding =
    ({| obj_dict := obj_dict holding; calls := calls holding ++ [CalledSet None] |},
     Raises (TypeError "Connection must be a connection")) ∧
  __get__ (connection (Some connection_fset) None None)
    {| obj_dict := obj_dict holding; calls := calls holding ++ [CalledSet None] |}
    = ({| obj_dict := obj_dict holding;
          calls := calls holding ++ [CalledSet None] |},
       Returns (Some 7)).
Proof.
  destruct (rejected_write_keeps_value
              (connection (Some connection_fset) None None) holding
              connection_fset None (obj_dict holding)
              (TypeError "Connection must be a connection")
              eq_refl eq_refl)
    as [Hraises Hkept].
  split; [exact Hraises|].
  apply Hkept; [|reflexivity].
  intros args d. simpl. by destruct args as [|[n|] [|]].
Defined.

Lemma read_times_computes_once_example :
  ∃ obj',
    read_times (connection None None None) 3 fresh
      = (obj', Returns (replicate 3 (Some 1))) ∧
    computed obj' = S (computed fresh).
Proof.
  apply (read_times_computes_once (connection None None None) fresh
           connection_fget (<["opened" := Some 1]> ∅) (Some 1) 2);
    reflexivity.
Defined.

Lemma read_read_delete_read_computes_twice_example :
  ∃ obj',
    read_read_delete_read (connection None (Some connection_fdel) None) fresh
      = (obj', Returns (Some 1, Some 1, Some 2)) ∧
    computed obj' = S (S (computed fresh)).
Proof.
  eapply (read_read_delete_read_computes_twice
            (connection None (Some connection_fdel) None) fresh
            _ connection_fget _ _ (Some 1) (Some 2)).
  - reflexivity.
  - reflexivity.
  - reflexivity.
  - intros h [= <-] args d. reflexivity.
  - reflexivity.
  - reflexivity.
Defined.

Lemma other_slots_untouched_example :
  obj_dict (__get__ (connection (Some renumbering_fset)
                       (Some connection_fdel) None) holding_both).1
    !! "session" = obj_dict holding_both !! "session" ∧
  obj_dict (__set__ (connection (Some renumbering_fset)
                       (Some connection_fdel) None) (Some 3) holding_both).1
    !! "session" = obj_dict holding_both !! "session" ∧
  obj_dict (__delete__ (connection (Some renumbering_fset)
                          (Some connection_fdel) None) holding_both).1
    !! "session" = obj_dict holding_both !! "session".
Proof.
  apply (other_slots_untouched
           (connection (Some renumbering_fset) (Some connection_fdel) None)
           holding_both "session" (Some 3)).
  - discriminate.
  - intros f [[= <-]|[[= <-]|[= <-]]] args d; simpl.
    + by rewrite lookup_insert_ne.
    + by destruct args as [|[n|] [|]].
    + reflexivity.
Defined.


Lemma write_write_read_returns_last_example :
  (∃ obj',
     write_write_read (connection None None None) (Some 3) (Some 4) holding
       = (obj', Returns (Some 4)) ∧
     computed obj' = computed holding) ∧
  (∃ obj',
     write_write_read (connection (Some renumbering_fset) None None)
       (Some 3) (Some 4) holding
       = (obj', Returns (Some 104)) ∧
     computed obj' = computed holding).
Proof.
  split.
  - apply (write_write_read_returns_last
             (connection None None None) holding (Some 3) (Some 4)).
    reflexivity.
  - apply (proj2 (write_write_read_returns_last
                    (connection (Some renumbering_fset) None None) holding
                    (Some 3) (Some 4))
             renumbering_fset (obj_dict holding)
             (<["connection" := Some 103]> (obj_dict holding))
             (Some 103) (Some 104));
      reflexivity.
Defined.

Lemma write_then_delete_hooks_stored_example :
  ∃ obj' deleted,
    write_then_delete (connection (Some renumbering_fset)
                         (Some connection_fdel) None) (Some 3) fresh
      = (obj', deleted) ∧
    calls obj' = calls fresh ++ [CalledSet (Some 3); CalledDel (Some 103)] ∧
    obj_dict obj' = (fn_call connection_fdel [Some 103] (delete "connection" ∅)).1.
Proof.
  apply (write_then_delete_hooks_stored
           (connection (Some renumbering_fset) (Some connection_fdel) None)
           fresh renumbering_fset connection_fdel (Some 3) (Some 103) ∅);
    reflexivity.
Defined.

Lemma delete_twice_hooks_once_example :
  delete_twice (connection None (Some connection_fdel) None) holding
    = ((__delete__ (connection None (Some connection_fdel) None) holding).1,
       Returns tt) ∧
  hooked (__delete__ (connection None (Some connection_fdel) None) holding).1
    ≤ S (hooked holding).
Proof.
  apply (delete_twice_hooks_once
           (connection None (Some connection_fdel) None) holding
           (__delete__ (connection None (Some connection_fdel) None) holding).1).
  - intros h [= <-] args d. reflexivity.
  - reflexivity.
Defined.

(** C2 as the specification states it fails: the construction without a
    compute function gives no descriptor. *)
Lemma init_without_fget_gives_no_descriptor :
  ¬ ∃ self : @cached_property (option nat),
      __init__ None None None None None = Returns self.
Proof. intros [self Hself]. discriminate Hself. Qed.

(** The instance [holding] is what [obj.connection = 7] makes of a new
    instance. *)
Example holding_is_written :
  __set__ (connection None None None) (Some 7) fresh = (holding, Returns tt).
Proof. reflexivity. Qed.

(** C5 as the specification states it fails on an instance that already
    holds a value, such as one that was written: the two reads return it
    and the compute function is called not once but never. *)
Lemma read_twice_stored_never_computes :
  read_twice (connection None None None) holding
    = (holding, Returns (Some 7, Some 7)) ∧
  computed (read_twice (connection None None None) holding).1
    ≠ S (computed holding).
Proof. split; [reflexivity | by vm_compute]. Qed.

Lemma read_twice_computes_at_first_read_example :
  (∃ obj',
     read_twice (connection None None None) fresh
       = (obj', Returns (Some 1, Some 1)) ∧
     computed obj' = S (computed fresh) ∧
     obj_dict obj' !! "connection" = Some (Some 1)) ∧
  read_twice (connection None None None) holding
    = (holding, Returns (Some 7, Some 7)).
Proof.
  split.
  - apply (proj1 (read_twice_computes_at_first_read
                    (connection None None None) fresh connection_fget eq_refl)
             (<["opened" := Some 1]> ∅) (Some 1)); reflexivity.
  - apply (proj2 (read_twice_computes_at_first_read
                    (connection None None None) holding connection_fget eq_refl)
             (Some 7)); reflexivity.
Defined.

Lemma write_then_read_returns_written_example :
  (∃ obj',
     write_then_read (connection None None None) (Some 3) holding
       = (obj', Returns (Some 3)) ∧
     computed obj' = computed holding) ∧
  (∃ obj',
     write_then_read (connection (Some renumbering_fset) None None) (Some 3) holding
       = (obj', Returns (Some 103)) ∧
     computed obj' = computed holding).
Proof.
  split.
  - apply (write_then_read_returns_written
             (connection None None None) holding (Some 3)).
    reflexivity.
  - apply (proj2 (write_then_read_returns_written
                    (connection (Some renumbering_fset) None None) holding (Some 3))
             renumbering_fset (obj_dict holding) (Some 103));
      reflexivity.
Defined.

(** C7 as the specification states it fails with a hook that stores the
    attribute again: the read after the delete returns the deleted value
    and the compute function is not called. *)
Lemma delete_then_read_restoring_hook :
  delete_then_read (connection None (Some restoring_fdel) None) holding
    = ({| obj_dict := obj_dict holding; calls := [CalledDel (Some 7)] |},
       Returns (Some 7)) ∧
  computed (delete_then_read (connection None (Some restoring_fdel) None) holding).1
    ≠ S (computed holding).
Proof. split; [reflexivity | by vm_compute]. Qed.

Lemma delete_then_read_recomputes_example :
  obj_dict (__delete__ (connection None (Some connection_fdel) None) holding).1
    !! "connection" = None ∧
  computed
    (__get__ (connection None (Some connection_fdel) None)
       (__delete__ (connection None (Some connection_fdel) None) holding).1).1
    = S (computed holding) ∧
  (__get__ (connection None (Some connection_fdel) None)
     (__delete__ (connection None (Some connection_fdel) None) holding).1).2
    = Returns (Some 1).
Proof.
  refine (delete_then_read_recomputes
            (connection None (Some connection_fdel) None) holding
            (__delete__ (connection None (Some connection_fdel) None) holding).1
            (__get__ (connection None (Some connection_fdel) None)
               (__delete__ (connection None (Some connection_fdel) None) holding).1).1
            connection_fget (Some 7) (Returns tt) (Returns (Some 1))
            _ _ _ _ _);
    try reflexivity.
  intros h [= <-] args d. reflexivity.
Defined.

Lemma delete_nothing_stored_skips_hook_example :
  __delete__ (connection None (Some connection_fdel) None) fresh
    = (fresh, Returns tt) ∧
  hooked (__delete__ (connection None (Some connection_fdel) None) fresh).1
    = hooked fresh.
Proof.
  apply (delete_nothing_stored_skips_hook
           (connection None (Some connection_fdel) None) fresh).
  reflexivity.
Defined.

Lemma rebinding_drops_class_attribute_example :
  ∃ f with_setter with_deleter,
    Some connection_fget = Some f ∧
    setter shared_connection connection_fset = Returns with_setter ∧
    deleter shared_connection connection_fdel = Returns with_deleter ∧
    class_attribute with_setter = None ∧
    class_attribute with_deleter = None ∧
    __doc__ with_setter = fn_doc f ∧
    __doc__ with_deleter = fn_doc f ∧
    __get__class with_setter (Some ∅) = Returns (Descriptor with_setter) ∧
    __get__class with_deleter (Some ∅) = Returns (Descriptor with_deleter).
Proof.
  apply (rebinding_drops_class_attribute
           (Some connection_fget) None None (Some "The shared connection.")
           "default_connection" shared_connection
           connection_fset connection_fdel (Some ∅)).
  reflexivity.
Defined.

(** C10 as the specification states it fails with a hook that stores the
    attribute again before it raises: after the exception the attribute is
    stored. *)
Lemma delete_restoring_hook_raises :
  __delete__ (connection None (Some restoring_failing_fdel) None) holding
    = ({| obj_dict := obj_dict holding; calls := [CalledDel (Some 7)] |},
       Raises (UserError "close failed")) ∧
  obj_dict (__delete__ (connection None (Some restoring_failing_fdel) None) holding).1
    !! "connection" ≠ None.
Proof. split; [reflexivity | by vm_compute]. Qed.

Lemma delete_hook_raises_after_removal_example :
  __delete__ (connection None (Some failing_fdel) None) holding =
    ({| obj_dict := delete "connection" (obj_dict holding);
        calls := [CalledDel (Some 7)] |},
     Raises (UserError "close failed")) ∧
  delete "connection" (obj_dict holding) !! "connection" = None.
Proof.
  destruct (delete_hook_raises_after_removal
              (connection None (Some failing_fdel) None) holding
              failing_fdel (Some 7)
              (delete "connection" (obj_dict holding))
              (UserError "close failed") eq_refl eq_refl eq_refl)
    as [Hdelete Hgone].
  split; [exact Hdelete|]. apply Hgone. intros args d. reflexivity.
Defined.

End CachedProperty.
